(** * kids3d (Chili3D): the shape-factory adapter, the Result container and
      the orientation text converter

    A shallow embedding of

    - the OpenCascade [ShapeFactory] with its helpers [ensureOccShape] and
      [convertShapeResult],
    - [QuaternionConverter.convertBack] ([convert] goes through
      [Quaternion.toEuler] and the printing of numbers and is left out),
    - the [Result] container exercised by [result.test.ts].

    JavaScript numbers are IEEE 754 binary64 values: they are embedded as
    Rocq's primitive floats, whose operations are the same correctly rounded
    ones.  Strings are sequences of code units below 256.  A call into the
    WebAssembly kernel is an event of a small free monad, so that "the kernel
    is (not) invoked" and "an exception is thrown" are visible in the value a
    factory operation denotes.

    The guard of [line] is set against the Euclidean distance of its points
    through the rounding of binary64: the operations of [SpecFloat] are
    given their values as real numbers, and squares, sums and square roots
    are bounded from there. *)

From Stdlib Require Import Reals Lra Floats ZArith Bool List Ascii String Lia.
Import ListNotations.

Set Warnings "-inexact-float".
Set Implicit Arguments.

Local Open Scope string_scope.

(* ================================================================== *)
(** * JavaScript built-ins used by the sources *)
(* ================================================================== *)

Module JS.

Local Open Scope Z_scope.

(** The [number] type. *)
Definition number := float.

(** [Math.PI]: the binary64 value nearest to pi. *)
Definition Math_PI : number := 0x1.921fb54442d18p+1%float.

(** The global [isNaN] on a number. *)
Definition isNaN (x : number) : bool := negb (x =? x)%float.

(** [x === y] on numbers. *)
Definition strictEq (x y : number) : bool := (x =? y)%float.

(** A value of dynamic type, as far as [result.test.ts] needs one. *)
Inductive value : Type :=
| Undefined
| Boolean (b : bool)
| Str (s : string)
| Num (n : number).

(** [ToBoolean]: [undefined], [false], the empty string, zeros and NaN are
    falsy. *)
Definition truthy (v : value) : bool :=
  match v with
  | Undefined => false
  | Boolean b => b
  | Str s => negb (String.eqb s "")
  | Num n => negb ((n =? 0)%float || isNaN n)
  end.

(** ** [String.prototype.split] with a one-character separator *)

Fixpoint split (sep : ascii) (s : string) : list string :=
  match s with
  | EmptyString => [EmptyString]
  | String c rest =>
      if Ascii.eqb c sep then EmptyString :: split sep rest
      else match split sep rest with
           | tok :: toks => String c tok :: toks
           | [] => [String c EmptyString]
           end
  end.

(** ** [Number(string)]: the StringToNumber conversion

    StringNumericLiteral of ECMA-262: surrounding white space is dropped,
    the empty string is [+0], then either a signed decimal literal
    (digits, fraction, exponent, or [Infinity]) or an unsigned binary,
    octal or hexadecimal integer literal; anything else is [NaN].  The
    mathematical value is rounded to the nearest binary64, ties to even. *)

Definition isStrWhiteSpaceChar (c : ascii) : bool :=
  let n := Z.of_nat (nat_of_ascii c) in
  (9 <=? n) && (n <=? 13) || (n =? 32) || (n =? 160).

Fixpoint trimStart (l : list ascii) : list ascii :=
  match l with
  | c :: l' => if isStrWhiteSpaceChar c then trimStart l' else l
  | [] => []
  end.

Definition trim (l : list ascii) : list ascii :=
  rev (trimStart (rev (trimStart l))).

Definition digitValue (radix : Z) (c : ascii) : option Z :=
  let n := Z.of_nat (nat_of_ascii c) in
  let d :=
    if (48 <=? n) && (n <=? 57) then Some (n - 48)
    else if (97 <=? n) && (n <=? 122) then Some (n - 87)
    else if (65 <=? n) && (n <=? 90) then Some (n - 55)
    else None in
  match d with
  | Some v => if v <? radix then Some v else None
  | None => None
  end.

(** The longest prefix of digits of the radix, as (value, count, rest). *)
Fixpoint digits (radix : Z) (acc : Z) (cnt : Z) (l : list ascii)
  : Z * Z * list ascii :=
  match l with
  | c :: l' =>
      match digitValue radix c with
      | Some v => digits radix (acc * radix + v)%Z (cnt + 1)%Z l'
      | None => (acc, cnt, l)
      end
  | [] => (acc, cnt, [])
  end.

(** [m * 10^e] rounded to binary64 with the sign [neg]; [m >= 0]. *)
Definition roundDecimal (neg : bool) (m e : Z) : spec_float :=
  let sgn (z : Z) := if neg then Z.opp z else z in
  if (m =? 0)%Z then S754_zero neg
  else if (0 <=? e)%Z then
    binary_normalize FloatOps.prec FloatOps.emax (sgn (m * 10 ^ e)%Z) 0 neg
  else
    let d := (10 ^ (- e))%Z in
    let s := Z.max 0 (Z.log2 d - Z.log2 m + 64) in
    let q := (Z.shiftl m s / d)%Z in
    let sticky := if (Z.shiftl m s mod d =? 0)%Z then 0%Z else 1%Z in
    binary_normalize FloatOps.prec FloatOps.emax (sgn (2 * q + sticky)%Z) (- (s + 1)) neg.

Definition isPrefix (p l : list ascii) : option (list ascii) :=
  (fix go (p l : list ascii) : option (list ascii) :=
     match p, l with
     | [], _ => Some l
     | a :: p', b :: l' => if Ascii.eqb a b then go p' l' else None
     | _ :: _, [] => None
     end) p l.

(** ExponentPart, optional: the decimal exponent and the rest. *)
Definition exponentPart (l : list ascii) : option (Z * list ascii) :=
  match l with
  | c :: l' =>
      if Ascii.eqb c "e"%char || Ascii.eqb c "E"%char then
        let '(neg, l'') :=
          match l' with
          | s :: t => if Ascii.eqb s "-"%char then (true, t)
                      else if Ascii.eqb s "+"%char then (false, t)
                      else (false, l')
          | [] => (false, l')
          end in
        let '(v, cnt, rest) := digits 10 0 0 l'' in
        if (cnt =? 0)%Z then None
        else Some (if neg then (- v)%Z else v, rest)
      else Some (0%Z, l)
  | [] => Some (0%Z, [])
  end.

(** StrUnsignedDecimalLiteral, to the end of the input. *)
Definition unsignedDecimal (neg : bool) (l : list ascii)
  : option spec_float :=
  match isPrefix (list_ascii_of_string "Infinity") l with
  | Some [] => Some (S754_infinity neg)
  | Some (_ :: _) => None
  | None =>
      let '(ip, icnt, l1) := digits 10 0 0 l in
      let '(m, fcnt, l2) :=
        match l1 with
        | c :: l1' =>
            if Ascii.eqb c "."%char then
              let '(m, cnt, rest) := digits 10 ip 0 l1' in (m, cnt, rest)
            else (ip, 0%Z, l1)
        | [] => (ip, 0%Z, l1)
        end in
      if (icnt + fcnt =? 0)%Z then None
      else
        match exponentPart l2 with
        | Some (e, []) => Some (roundDecimal neg m (e - fcnt))
        | _ => None
        end
  end.

(** NonDecimalIntegerLiteral: [0b], [0o], [0x] in either case, unsigned. *)
Definition nonDecimalInteger (l : list ascii) : option spec_float :=
  match l with
  | z :: p :: l' =>
      if Ascii.eqb z "0"%char then
        let radix :=
          if Ascii.eqb p "x"%char || Ascii.eqb p "X"%char then Some 16%Z
          else if Ascii.eqb p "o"%char || Ascii.eqb p "O"%char then Some 8%Z
          else if Ascii.eqb p "b"%char || Ascii.eqb p "B"%char then Some 2%Z
          else None in
        match radix with
        | Some r =>
            match digits r 0 0 l' with
            | (v, cnt, []) =>
                if (cnt =? 0)%Z then None
                else Some (binary_normalize FloatOps.prec FloatOps.emax v 0 false)
            | _ => None
            end
        | None => None
        end
      else None
  | _ => None
  end.

Definition stringToSpec (s : string) : spec_float :=
  let l := trim (list_ascii_of_string s) in
  match l with
  | [] => S754_zero false
  | c :: l' =>
      let r :=
        match nonDecimalInteger l with
        | Some v => Some v
        | None =>
            if Ascii.eqb c "-"%char then unsignedDecimal true l'
            else if Ascii.eqb c "+"%char then unsignedDecimal false l'
            else unsignedDecimal false l
        end in
      match r with
      | Some v => v
      | None => S754_nan
      end
  end.

Definition Number (s : string) : number := SF2Prim (stringToSpec s).

End JS.

(* ================================================================== *)
(** * Result *)
(* ================================================================== *)

Module Result.

(** Modelled from the spec: the [Result] class of chili-core is not under
    src/ (only its test is).  "A tagged union with exactly two variants,
    Ok(value) and Err(error)"; [isOk] is a boolean query; [value] is
    accessible only on Ok and [error] only on Err, so the accessors are
    partial. *)
Inductive t (T E : Type) : Type :=
| ok (value : T)
| err (error : E).

Arguments ok {T E} value.
Arguments err {T E} error.

Definition isOk {T E} (r : t T E) : bool :=
  match r with
  | ok _ => true
  | err _ => false
  end.

Definition value {T E} (r : t T E) : option T :=
  match r with
  | ok v => Some v
  | err _ => None
  end.

Definition error {T E} (r : t T E) : option E :=
  match r with
  | ok _ => None
  | err e => Some e
  end.

End Result.

(** [result.test.ts], "test result": the conjunction of its expectations.
    [toBe] compares the populated field, [toBeTruthy]/[toBeFalsy] go through
    [ToBoolean]. *)
Module ResultTest.

Definition R := Result.t JS.value JS.value.

Definition r1 : R := Result.ok (JS.Str "11").
Definition r2 : R := Result.err (JS.Str "err").
Definition r3 : R := Result.ok (JS.Boolean true).
Definition r4 : R := Result.ok JS.Undefined.

Definition toBeTruthy (v : JS.value) : Prop := JS.truthy v = true.
Definition toBeFalsy (v : JS.value) : Prop := JS.truthy v = false.

Definition test_result : Prop :=
  Result.value r1 = Some (JS.Str "11") /\
  toBeTruthy (JS.Boolean (Result.isOk r1)) /\
  toBeFalsy (JS.Boolean (Result.isOk r2)) /\
  toBeTruthy (JS.Boolean (negb (Result.isOk r2))) /\
  Result.error r2 = Some (JS.Str "err") /\
  toBeTruthy (JS.Boolean (Result.isOk r3)) /\
  (exists v, Result.value r3 = Some v /\ toBeTruthy v) /\
  toBeTruthy (JS.Boolean (Result.isOk r4)) /\
  Result.value r4 = Some JS.Undefined.

End ResultTest.

(* ================================================================== *)
(** * The kernel binding *)
(* ================================================================== *)

(** What the sources import and src/ does not hold, kept abstract:
    the native handle [TopoDS_Shape] and the type of [ShapeResult.error]
    (chili-wasm), JavaScript's [String(...)] on such an error value, the
    shape implementations of other kernels, and the pass-through types
    [Plane], [Ray] with [OcctHelper.toAx3]. *)
Class Binding : Type := {
  TopoDS_Shape : Type;
  ErrorValue : Type;
  String_ : ErrorValue -> string;
  OtherShape : Type;
  Plane : Type;
  Ax3 : Type;
  toAx3 : Plane -> Ax3;
  Ray : Type
}.

(** [XYZLike] and [XYZ]: a triple of numbers. *)
Record XYZ : Type := { x : JS.number; y : JS.number; z : JS.number }.

(** Modelled from the spec: [XYZ.length()] of chili-core is not under src/;
    the Euclidean length of the triple ("the extrusion vector has zero
    length"). *)
Definition XYZ_length (v : XYZ) : JS.number :=
  sqrt (x v * x v + y v * y v + z v * z v)%float.

Module MathUtils.

(** Modelled from the spec: [MathUtils.degToRad] of chili-core is not under
    src/; "a degree input d to radians as d * pi/180". *)
Definition degToRad (degrees : JS.number) : JS.number :=
  (degrees * JS.Math_PI / 180)%float.

(** Modelled from the spec: [MathUtils.allEqualZero] of chili-core is not
    under src/, nor is the tolerance it compares with, the parameter
    [epsilon] here.  The spec's "all three components within epsilon of
    zero" is read with its "line(p, p) (identical start/end) always returns
    Result.err" and "with |p-q| >= epsilon proceeds to the kernel call": a
    value counts as zero unless its magnitude is at least [epsilon].  So a
    difference of exactly [epsilon] is not zero, and the NaN that an
    infinite or NaN coordinate leaves when subtracted from itself is. *)
Definition allEqualZero (epsilon : JS.number) (values : list JS.number)
  : bool :=
  forallb (fun v => negb (epsilon <=? abs v)%float) values.

End MathUtils.

Section Kernel.

Context {B : Binding}.

(** The shape interfaces ([IShape] and its sub-interfaces, which are erased
    at run time): an object is an instance of this binding's [OccShape],
    holding its native handle in [shape], or it is something else. *)
Inductive IShape : Type :=
| OccShape (shape : TopoDS_Shape)
| Foreign (impl : OtherShape).

(** [x instanceof OccShape] *)
Definition instanceofOccShape (s : IShape) : bool :=
  match s with
  | OccShape _ => true
  | Foreign _ => false
  end.

(** The tagged outcome of a native call ([ShapeResult] of chili-wasm). *)
Record ShapeResult : Type := {
  isOk : bool;
  shape : TopoDS_Shape;
  error : ErrorValue
}.

(** One constructor per method of [wasm.ShapeFactory], with the arguments
    as they cross the boundary.  An argument written [e[0]] in the source
    is [undefined] ([None]) on an empty array. *)
Inductive KernelCall : Type :=
| wasm_face (shapes : list TopoDS_Shape)
| wasm_bezier (points : list XYZ) (weights : list JS.number)
| wasm_point (point : XYZ)
| wasm_line (start end_ : XYZ)
| wasm_arc (normal center start : XYZ) (radians : JS.number)
| wasm_circle (normal center : XYZ) (radius : JS.number)
| wasm_rect (ax : Ax3) (dx dy : JS.number)
| wasm_polygon (points : list XYZ)
| wasm_box (ax : Ax3) (dx dy dz : JS.number)
| wasm_wire (edges : list TopoDS_Shape)
| wasm_prism (shape : option TopoDS_Shape) (vec : XYZ)
| wasm_sweep (profile path : option TopoDS_Shape)
| wasm_revolve (profile : option TopoDS_Shape) (axis : Ray)
    (radians : JS.number)
| wasm_booleanCommon (shape1 shape2 : list TopoDS_Shape)
| wasm_booleanCut (shape1 shape2 : list TopoDS_Shape)
| wasm_booleanFuse (shape1 shape2 : list TopoDS_Shape)
| wasm_combine (shapes : list TopoDS_Shape)
| wasm_makeThickSolidBySimple (shape : option TopoDS_Shape)
    (thickness : JS.number)
| wasm_makeThickSolidByJoin (shape : option TopoDS_Shape)
    (closingFaces : list TopoDS_Shape) (thickness : JS.number).

(** ** Computations: return, throw, or call the kernel and go on *)

Inductive Prog (A : Type) : Type :=
| Return (a : A)
| Throw (message : string)
| Invoke (c : KernelCall) (k : ShapeResult -> Prog A).

Arguments Return {A} a.
Arguments Throw {A} message.
Arguments Invoke {A} c k.

Fixpoint bind {A C : Type} (p : Prog A) (f : A -> Prog C) : Prog C :=
  match p with
  | Return a => f a
  | Throw m => Throw m
  | Invoke c k => Invoke c (fun r => bind (k r) f)
  end.

(** The native call itself. *)
Definition call (c : KernelCall) : Prog ShapeResult := Invoke c Return.

(** What a caller observes: the value returned or the exception thrown, and
    the kernel calls made on the way, in order. *)
Inductive Outcome (A : Type) : Type :=
| Returned (a : A)
| Thrown (message : string).

Arguments Returned {A} a.
Arguments Thrown {A} message.

Fixpoint run {A : Type} (kernel : KernelCall -> ShapeResult) (p : Prog A)
  : Outcome A * list KernelCall :=
  match p with
  | Return a => (Returned a, [])
  | Throw m => (Thrown m, [])
  | Invoke c k =>
      let (o, calls) := run kernel (k (kernel c)) in (o, c :: calls)
  end.

End Kernel.

Arguments Return {B A} a.
Arguments Throw {B A} message.
Arguments Invoke {B A} c k.
Arguments Returned {A} a.
Arguments Thrown {A} message.

Notation "x <- p ;; q" := (bind p (fun x => q))
  (at level 61, p at next level, right associativity).

(* ================================================================== *)
(** * ensureOccShape and convertShapeResult *)
(* ================================================================== *)

Section Helpers.

Context {B : Binding}.

Definition onlyOcc : string :=
  "The OCC kernel only supports OCC geometries.".

(** [Array.prototype.map] with a callback that may throw: elements are
    visited in order and the first exception ends the traversal. *)
Fixpoint Array_map {X Y : Type} (f : X -> Prog Y) (l : list X)
  : Prog (list Y) :=
  match l with
  | [] => Return []
  | a :: l' => b <- f a ;; bs <- Array_map f l' ;; Return (b :: bs)
  end.

(** The argument is [IShape | IShape[]]: [inl] a single shape, [inr] an
    array ([Array.isArray]). *)
Definition ensureOccShape (shapes : IShape + list IShape)
  : Prog (list TopoDS_Shape) :=
  match shapes with
  | inr arr =>
      Array_map (fun x => match x with
                          | OccShape h => Return h
                          | Foreign _ => Throw onlyOcc
                          end) arr
  | inl (OccShape h) => Return [h]
  | inl (Foreign _) => Throw onlyOcc
  end.

(** Modelled from the spec: [OcctHelper.wrapShape] is not under src/; "wraps
    the native handle via the Shape Ownership Wrapper", an instance of this
    binding's wrapper type that holds the handle. *)
Definition OcctHelper_wrapShape (h : TopoDS_Shape) : IShape := OccShape h.

Definition convertShapeResult (result : ShapeResult)
  : Result.t IShape string :=
  if negb (isOk result) then Result.err (String_ (error result))
  else Result.ok (OcctHelper_wrapShape (shape result)).

(** [convertShapeResult(wasm.ShapeFactory.m(...))]: the native call, then
    the normalisation of its outcome. *)
Definition converted (c : KernelCall) : Prog (Result.t IShape string) :=
  r <- call c ;; Return (convertShapeResult r).

(** [a[0]]: [undefined] on an empty array. *)
Definition at0 {X : Type} (a : list X) : option X := nth_error a 0.

End Helpers.

(* ================================================================== *)
(** * ShapeFactory *)
(* ================================================================== *)

Module ShapeFactory.
Section Operations.

Context {B : Binding}.

(** The tolerance behind [MathUtils.allEqualZero]. *)
Variable epsilon : JS.number.

Local Abbreviation Res := (Prog (Result.t IShape string)).

Definition face (wire : list IShape) : Res :=
  shapes <- ensureOccShape (inr wire) ;;
  converted (wasm_face shapes).

Definition bezier (points : list XYZ) (weights : option (list JS.number))
  : Res :=
  converted (wasm_bezier points
               (match weights with Some w => w | None => [] end)).

Definition point (point : XYZ) : Res :=
  converted (wasm_point point).

Definition line (start end_ : XYZ) : Res :=
  if MathUtils.allEqualZero epsilon
       [x start - x end_; y start - y end_; z start - z end_]%float
  then Return (Result.err "The start and end points are too close.")
  else converted (wasm_line start end_).

Definition arc (normal center start : XYZ) (angle : JS.number) : Res :=
  converted (wasm_arc normal center start (MathUtils.degToRad angle)).

Definition circle (normal center : XYZ) (radius : JS.number) : Res :=
  converted (wasm_circle normal center radius).

Definition rect (plane : Plane) (dx dy : JS.number) : Res :=
  converted (wasm_rect (toAx3 plane) dx dy).

Definition polygon (points : list XYZ) : Res :=
  converted (wasm_polygon points).

Definition box (plane : Plane) (dx dy dz : JS.number) : Res :=
  converted (wasm_box (toAx3 plane) dx dy dz).

Definition wire (edges : list IShape) : Res :=
  shapes <- ensureOccShape (inr edges) ;;
  converted (wasm_wire shapes).

Definition prism (shape : IShape) (vec : XYZ) : Res :=
  if JS.strictEq (XYZ_length vec) 0%float
  then Return (Result.err
                 "The vector length is 0, the prism cannot be created.")
  else
    s <- ensureOccShape (inl shape) ;;
    converted (wasm_prism (at0 s) vec).

Definition fuse (bottom top : IShape) : Res :=
  b <- ensureOccShape (inl bottom) ;;
  t <- ensureOccShape (inl top) ;;
  converted (wasm_booleanFuse b t).

Definition sweep (profile path : IShape) : Res :=
  p <- ensureOccShape (inl profile) ;;
  w <- ensureOccShape (inl path) ;;
  converted (wasm_sweep (at0 p) (at0 w)).

Definition revolve (profile : IShape) (axis : Ray) (angle : JS.number)
  : Res :=
  p <- ensureOccShape (inl profile) ;;
  converted (wasm_revolve (at0 p) axis (MathUtils.degToRad angle)).

Definition booleanCommon (shape1 shape2 : IShape) : Res :=
  s1 <- ensureOccShape (inl shape1) ;;
  s2 <- ensureOccShape (inl shape2) ;;
  converted (wasm_booleanCommon s1 s2).

Definition booleanCut (shape1 shape2 : IShape) : Res :=
  s1 <- ensureOccShape (inl shape1) ;;
  s2 <- ensureOccShape (inl shape2) ;;
  converted (wasm_booleanCut s1 s2).

Definition booleanFuse (shape1 shape2 : IShape) : Res :=
  s1 <- ensureOccShape (inl shape1) ;;
  s2 <- ensureOccShape (inl shape2) ;;
  converted (wasm_booleanFuse s1 s2).

Definition combine (shapes : list IShape) : Res :=
  s <- ensureOccShape (inr shapes) ;;
  converted (wasm_combine s).

Definition makeThickSolidBySimple (shape : IShape) (thickness : JS.number)
  : Res :=
  s <- ensureOccShape (inl shape) ;;
  converted (wasm_makeThickSolidBySimple (at0 s) thickness).

Definition makeThickSolidByJoin (shape : IShape)
  (closingFaces : list IShape) (thickness : JS.number) : Res :=
  s <- ensureOccShape (inl shape) ;;
  faces <- ensureOccShape (inr closingFaces) ;;
  converted (wasm_makeThickSolidByJoin (at0 s) faces thickness).

End Operations.
End ShapeFactory.

(* ================================================================== *)
(** * QuaternionConverter *)
(* ================================================================== *)

Module QuaternionConverter.
Section Converter.

(** [Quaternion] and [Quaternion.fromEuler] of chili-core are not under
    src/: the result of [convertBack] is built with them. *)
Variable Quaternion : Type.
Variable fromEuler : JS.number -> JS.number -> JS.number -> Quaternion.

(** [vs[i]] in arithmetic: [undefined], hence NaN, out of range. *)
Definition at_ (vs : list JS.number) (i : nat) : JS.number := nth i vs nan.

(** The numbers that survive the filter of [convertBack]. *)
Definition numbersOf (value : string) : list JS.number :=
  filter (fun x => negb (JS.isNaN x))
    (map (fun x => JS.Number x) (JS.split "," value)).

Definition convertBack (value : string) : Result.t Quaternion string :=
  let vs := numbersOf value in
  if negb (List.length vs =? 3)%nat then
    Result.err (value ++ " convert to Quaternion error")
  else
    let s := (JS.Math_PI / 180)%float in
    Result.ok (fromEuler (at_ vs 0 * s) (at_ vs 1 * s) (at_ vs 2 * s))%float.

End Converter.
End QuaternionConverter.

(* ================================================================== *)
(** * Vocabulary of the statements *)
(* ================================================================== *)

(** The factory operations that accept shapes, each with its arguments. *)
Inductive ShapeOperation {B : Binding} : Type :=
| op_face (wire : list IShape)
| op_wire (edges : list IShape)
| op_prism (shape : IShape) (vec : XYZ)
| op_fuse (bottom top : IShape)
| op_sweep (profile path : IShape)
| op_revolve (profile : IShape) (axis : Ray) (angle : JS.number)
| op_booleanCommon (shape1 shape2 : IShape)
| op_booleanCut (shape1 shape2 : IShape)
| op_booleanFuse (shape1 shape2 : IShape)
| op_combine (shapes : list IShape)
| op_makeThickSolidBySimple (shape : IShape) (thickness : JS.number)
| op_makeThickSolidByJoin (shape : IShape) (closingFaces : list IShape)
    (thickness : JS.number).

Section Vocabulary.

Context {B : Binding}.

Definition perform (o : ShapeOperation) : Prog (Result.t IShape string) :=
  match o with
  | op_face w => ShapeFactory.face w
  | op_wire e => ShapeFactory.wire e
  | op_prism s v => ShapeFactory.prism s v
  | op_fuse b t => ShapeFactory.fuse b t
  | op_sweep p w => ShapeFactory.sweep p w
  | op_revolve p a d => ShapeFactory.revolve p a d
  | op_booleanCommon a b => ShapeFactory.booleanCommon a b
  | op_booleanCut a b => ShapeFactory.booleanCut a b
  | op_booleanFuse a b => ShapeFactory.booleanFuse a b
  | op_combine l => ShapeFactory.combine l
  | op_makeThickSolidBySimple s t => ShapeFactory.makeThickSolidBySimple s t
  | op_makeThickSolidByJoin s f t => ShapeFactory.makeThickSolidByJoin s f t
  end.

(** The shapes an operation is given, in argument order. *)
Definition shapeInputs (o : ShapeOperation) : list IShape :=
  match o with
  | op_face l | op_wire l | op_combine l => l
  | op_prism s _ | op_revolve s _ _ | op_makeThickSolidBySimple s _ => [s]
  | op_fuse a b | op_sweep a b | op_booleanCommon a b
  | op_booleanCut a b | op_booleanFuse a b => [a; b]
  | op_makeThickSolidByJoin s f _ => s :: f
  end.

(** Some input is not an instance of this binding's wrapper. *)
Definition hasForeign (l : list IShape) : bool :=
  existsb (fun s => negb (instanceofOccShape s)) l.

(** The operation is [prism] with a vector whose length is exactly 0. *)
Definition zeroLengthPrism (o : ShapeOperation) : bool :=
  match o with
  | op_prism _ v => JS.strictEq (XYZ_length v) 0%float
  | _ => false
  end.

(** The native handles of the wrappers in a list, in order. *)
Definition handles (l : list IShape) : list TopoDS_Shape :=
  flat_map (fun s => match s with
                     | OccShape h => [h]
                     | Foreign _ => []
                     end) l.

End Vocabulary.

(** No coordinate of [p - q] is at least [epsilon] in magnitude. *)
Definition coincide (epsilon : JS.number) (p q : XYZ) : bool :=
  (negb (epsilon <=? abs (x p - x q)) && negb (epsilon <=? abs (y p - y q))
   && negb (epsilon <=? abs (z p - z q)))%float.

(** The Euclidean distance [|p - q|]. *)
Definition distance (p q : XYZ) : JS.number :=
  XYZ_length {| x := x p - x q; y := y p - y q; z := z p - z q |}%float.

(** No coordinate is NaN or infinite. *)
Definition finiteXYZ (p : XYZ) : bool :=
  is_finite (x p) && is_finite (y p) && is_finite (z p).

(** A binding to evaluate on: handles are numbers, kernel errors are
    strings. *)
Definition sampleBinding : Binding :=
  {| TopoDS_Shape := nat;
     ErrorValue := string;
     String_ := fun e => e;
     OtherShape := unit;
     Plane := unit;
     Ax3 := unit;
     toAx3 := fun p => p;
     Ray := unit |}.

Definition handle (n : nat) : @TopoDS_Shape sampleBinding := n.

Definition ownShape (n : nat) : @IShape sampleBinding := OccShape (handle n).

Definition foreignShape : @IShape sampleBinding :=
  Foreign (tt : @OtherShape sampleBinding).

Definition origin : XYZ := {| x := 0; y := 0; z := 0 |}%float.

(** A native outcome that carries the handle [n]. *)
Definition succeeded (n : nat) : @ShapeResult sampleBinding :=
  {| isOk := true;
     shape := handle n;
     error := ("" : @ErrorValue sampleBinding) |}.

(** A kernel that fails every call. *)
Definition failingKernel (c : @KernelCall sampleBinding)
  : @ShapeResult sampleBinding :=
  {| isOk := false;
     shape := handle 0;
     error := ("kernel error" : @ErrorValue sampleBinding) |}.

(** The messages of the two validation errors. *)
Definition tooClose : string := "The start and end points are too close.".

Definition zeroLengthMessage : string :=
  "The vector length is 0, the prism cannot be created.".

(* ================================================================== *)
(** * The whole factory, and the converter's other direction *)
(* ================================================================== *)

(** The factory operations that take no shape, each with its arguments. *)
Inductive PlainOperation {B : Binding} : Type :=
| op_bezier (points : list XYZ) (weights : option (list JS.number))
| op_point (point : XYZ)
| op_line (start end_ : XYZ)
| op_arc (normal center start : XYZ) (angle : JS.number)
| op_circle (normal center : XYZ) (radius : JS.number)
| op_rect (plane : Plane) (dx dy : JS.number)
| op_polygon (points : list XYZ)
| op_box (plane : Plane) (dx dy dz : JS.number).

(** Why an operation ends before the kernel is reached. *)
Inductive Rejection : Type :=
| validationError (message : string)
| hardFault (message : string).

Section WholeFactory.

Context {B : Binding}.

Variable epsilon : JS.number.

Definition performPlain (o : PlainOperation)
  : Prog (Result.t IShape string) :=
  match o with
  | op_bezier p w => ShapeFactory.bezier p w
  | op_point p => ShapeFactory.point p
  | op_line s e => ShapeFactory.line epsilon s e
  | op_arc n c s a => ShapeFactory.arc n c s a
  | op_circle n c r => ShapeFactory.circle n c r
  | op_rect p dx dy => ShapeFactory.rect p dx dy
  | op_polygon p => ShapeFactory.polygon p
  | op_box p dx dy dz => ShapeFactory.box p dx dy dz
  end.

(** Any of the twenty operations. *)
Definition performAny (o : ShapeOperation + PlainOperation)
  : Prog (Result.t IShape string) :=
  match o with
  | inl s => perform s
  | inr p => performPlain p
  end.

Definition shapeInputsAny (o : ShapeOperation + PlainOperation)
  : list IShape :=
  match o with
  | inl s => shapeInputs s
  | inr _ => []
  end.

(** The checks made before the kernel is reached, in the order the
    operations make them. *)
Definition rejection (o : ShapeOperation + PlainOperation)
  : option Rejection :=
  match o with
  | inl s =>
      if zeroLengthPrism s then Some (validationError zeroLengthMessage)
      else if hasForeign (shapeInputs s) then Some (hardFault onlyOcc)
      else None
  | inr (op_line p q) =>
      if coincide epsilon p q then Some (validationError tooClose) else None
  | inr _ => None
  end.

(** The native call of an operation whose shape inputs are wrappers. *)
Definition callOf (o : ShapeOperation + PlainOperation) : KernelCall :=
  match o with
  | inl (op_face w) => wasm_face (handles w)
  | inl (op_wire e) => wasm_wire (handles e)
  | inl (op_prism s v) => wasm_prism (at0 (handles [s])) v
  | inl (op_fuse b t) => wasm_booleanFuse (handles [b]) (handles [t])
  | inl (op_sweep p w) => wasm_sweep (at0 (handles [p])) (at0 (handles [w]))
  | inl (op_revolve p a d) =>
      wasm_revolve (at0 (handles [p])) a (MathUtils.degToRad d)
  | inl (op_booleanCommon a b) =>
      wasm_booleanCommon (handles [a]) (handles [b])
  | inl (op_booleanCut a b) => wasm_booleanCut (handles [a]) (handles [b])
  | inl (op_booleanFuse a b) => wasm_booleanFuse (handles [a]) (handles [b])
  | inl (op_combine l) => wasm_combine (handles l)
  | inl (op_makeThickSolidBySimple s t) =>
      wasm_makeThickSolidBySimple (at0 (handles [s])) t
  | inl (op_makeThickSolidByJoin s f t) =>
      wasm_makeThickSolidByJoin (at0 (handles [s])) (handles f) t
  | inr (op_bezier p w) =>
      wasm_bezier p (match w with Some l => l | None => [] end)
  | inr (op_point p) => wasm_point p
  | inr (op_line s e) => wasm_line s e
  | inr (op_arc n c s a) => wasm_arc n c s (MathUtils.degToRad a)
  | inr (op_circle n c r) => wasm_circle n c r
  | inr (op_rect p dx dy) => wasm_rect (toAx3 p) dx dy
  | inr (op_polygon p) => wasm_polygon p
  | inr (op_box p dx dy dz) => wasm_box (toAx3 p) dx dy dz
  end.

(** The native handles among the arguments of a kernel call, in argument
    order; an [undefined] argument contributes none. *)
Definition shapeArguments (c : KernelCall) : list TopoDS_Shape :=
  let opt (o : option TopoDS_Shape) :=
    match o with Some h => [h] | None => [] end in
  match c with
  | wasm_face l | wasm_wire l | wasm_combine l => l
  | wasm_prism s _ | wasm_revolve s _ _
  | wasm_makeThickSolidBySimple s _ => opt s
  | wasm_sweep p w => opt p ++ opt w
  | wasm_booleanCommon a b | wasm_booleanCut a b
  | wasm_booleanFuse a b => a ++ b
  | wasm_makeThickSolidByJoin s f _ => opt s ++ f
  | wasm_bezier _ _ | wasm_point _ | wasm_line _ _ | wasm_arc _ _ _ _
  | wasm_circle _ _ _ | wasm_rect _ _ _ | wasm_polygon _
  | wasm_box _ _ _ _ => []
  end.

End WholeFactory.

(** A kernel that succeeds on every call with the handle 7. *)
Definition succeedingKernel (c : @KernelCall sampleBinding)
  : @ShapeResult sampleBinding := succeeded 7.

(** A cut of one wrapper by another, as an operation. *)
Definition sampleCut
  : @ShapeOperation sampleBinding + @PlainOperation sampleBinding :=
  inl (op_booleanCut (ownShape 1) (ownShape 2)).

(** [fromEuler] standing for itself: the triple of its arguments. *)
Definition recordEuler (a b c : JS.number)
  : JS.number * JS.number * JS.number := (a, b, c).

(** The occurrences of a character in a string. *)
Fixpoint countChar (c : ascii) (s : string) : nat :=
  match s with
  | EmptyString => 0
  | String a rest => (if Ascii.eqb a c then 1 else 0) + countChar c rest
  end.

Section ConverterText.

(** [Quaternion.toEuler] of chili-core is not under src/, and the conversion
    of a number in a template literal is JavaScript's: both are
    parameters. *)
Variable Quaternion : Type.
Variable toEuler : Quaternion -> XYZ.
Variable Number_toString : JS.number -> string.

(** [QuaternionConverter.convert] *)
Definition QuaternionConverter_convert (value : Quaternion)
  : Result.t string string :=
  let e := toEuler value in
  let s := (180 / JS.Math_PI)%float in
  Result.ok (Number_toString (x e * s)%float ++ "," ++
             Number_toString (y e * s)%float ++ "," ++
             Number_toString (z e * s)%float).

End ConverterText.

(** NaN or [+infinity]. *)
Definition SFtop (a : spec_float) : Prop :=
  a = S754_nan \/ a = S754_infinity false.

(** Not of negative sign. *)
Definition SFnotneg (a : spec_float) : Prop :=
  match a with
  | S754_zero s | S754_infinity s | S754_finite s _ _ => s = false
  | S754_nan => True
  end.

(* ================================================================== *)
(** * Binary64 numbers as real numbers *)
(* ================================================================== *)

Section Binary64Values.

Local Open Scope R_scope.

(** [2^e] *)
Definition bpow (e : Z) : R := powerRZ 2 e.








End Binary64Values.

(* ================================================================== *)
(** * Binary64 facts behind the guards *)
(* ================================================================== *)

Section Binary64.

Local Open Scope float_scope.

Lemma finite_cases (v : float) :
  is_finite v = true ->
  (exists s, Prim2SF v = S754_zero s) \/
  (exists s m e, Prim2SF v = S754_finite s m e).
Proof.
  unfold is_finite, is_nan, is_infinity.
  rewrite !FloatAxioms.eqb_spec, abs_spec.
  change (Prim2SF infinity) with (S754_infinity false).
  destruct (Prim2SF v) as [s|s| |s m e].
  - left; eauto.
  - destruct s; discriminate.
  - discriminate.
  - right; eauto.
Qed.

(** A finite number minus itself is [+0]. *)
Lemma sub_diag_finite (v : float) : is_finite v = true -> v - v = 0.
Proof.
  intros H. apply Prim2SF_inj. rewrite sub_spec.
  change (Prim2SF 0) with (S754_zero false).
  destruct (finite_cases v H) as [[s E]|[s [m [e E]]]]; rewrite E.
  - destruct s; reflexivity.
  - unfold SF64sub, SFsub. rewrite Z.sub_diag. reflexivity.
Qed.

(** [a < b] excludes [b <= a]. *)
Lemma SFltb_not_SFleb (a b : spec_float) :
  SFltb a b = true -> SFleb b a = false.
Proof.
  unfold SFltb, SFleb.
  destruct a as [sa|sa| |sa ma ea], b as [sb|sb| |sb mb eb];
    try destruct sa; try destruct sb; simpl; try discriminate;
    try reflexivity.
  - rewrite (Z.compare_antisym ea eb).
    destruct (ea ?= eb)%Z; simpl; try discriminate; try reflexivity.
    change Eq with (CompOpp Eq) at 2.
    rewrite <- (Pos.compare_cont_antisym ma mb Eq).
    destruct (Pos.compare_cont Eq ma mb); simpl; try discriminate;
      reflexivity.
  - rewrite (Z.compare_antisym ea eb).
    destruct (ea ?= eb)%Z; simpl; try discriminate; try reflexivity.
    change Eq with (CompOpp Eq) at 2.
    rewrite <- (Pos.compare_cont_antisym ma mb Eq).
    destruct (Pos.compare_cont Eq ma mb); simpl; try discriminate;
      reflexivity.
Qed.

Lemma ltb_not_leb (a b : float) : (a <? b) = true -> (b <=? a) = false.
Proof. rewrite ltb_spec, leb_spec. apply SFltb_not_SFleb. Qed.




End Binary64.

(* ================================================================== *)
(** * ensureOccShape *)
(* ================================================================== *)

Section EnsureOccShape.

Context {B : Binding}.

Lemma ensureOccShape_single (s : IShape) :
  ensureOccShape (inl s) =
  match s with
  | OccShape h => Return [h]
  | Foreign _ => Throw onlyOcc
  end.
Proof. destruct s; reflexivity. Qed.

(** An array of wrappers is unwrapped to its handles, in order. *)
Lemma ensureOccShape_array_own (l : list IShape) :
  hasForeign l = false -> ensureOccShape (inr l) = Return (handles l).
Proof.
  induction l as [|[h|f] l IH]; simpl; intros H.
  - reflexivity.
  - simpl in IH. rewrite (IH H). reflexivity.
  - discriminate.
Qed.

(** An array with a foreign element throws. *)
Lemma ensureOccShape_array_foreign (l : list IShape) :
  hasForeign l = true -> ensureOccShape (inr l) = Throw onlyOcc.
Proof.
  induction l as [|[h|f] l IH]; simpl; intros H.
  - discriminate.
  - simpl in IH. rewrite (IH H). reflexivity.
  - reflexivity.
Qed.

End EnsureOccShape.

(* ================================================================== *)
(** * Result *)
(* ================================================================== *)

(** C6. For every value [v], [Result.ok(v)] reports [isOk] true and stores
    exactly [v], falsy values such as [false] and [undefined] included; for
    every error [e], [Result.err(e)] reports [isOk] false and stores exactly
    [e].  The expectations of [result.test.ts] hold. *)
Theorem Result_ok_err_store :
  (forall (T E : Type) (v : T),
      Result.isOk (Result.ok v : Result.t T E) = true /\
      Result.value (Result.ok v : Result.t T E) = Some v) /\
  (forall (T E : Type) (e : E),
      Result.isOk (Result.err e : Result.t T E) = false /\
      Result.error (Result.err e : Result.t T E) = Some e) /\
  (JS.truthy (JS.Boolean false) = false /\
   Result.isOk (Result.ok (JS.Boolean false) : ResultTest.R) = true) /\
  (JS.truthy JS.Undefined = false /\
   Result.isOk (Result.ok JS.Undefined : ResultTest.R) = true) /\
  ResultTest.test_result.
Proof.
  repeat split; try reflexivity.
  exists (JS.Boolean true). split; reflexivity.
Qed.

(* ================================================================== *)
(** * convertShapeResult *)
(* ================================================================== *)

(** C4. For every native outcome: when its [isOk] flag is false,
    [convertShapeResult] returns [Result.err] carrying the kernel error
    converted to a string, so the error is not dropped; when the outcome is
    successful it returns [Result.ok] of a wrapper around the native
    handle. *)
Theorem convertShapeResult_normalises (B : Binding) (r : ShapeResult) :
  (isOk r = false ->
   convertShapeResult r = Result.err (String_ (error r)) /\
   Result.error (convertShapeResult r) = Some (String_ (error r))) /\
  (isOk r = true ->
   convertShapeResult r = Result.ok (OccShape (shape r)) /\
   exists w, Result.value (convertShapeResult r) = Some w /\
             instanceofOccShape w = true /\ handles [w] = [shape r]).
Proof.
  unfold convertShapeResult, OcctHelper_wrapShape.
  split; intros ->; simpl; repeat split.
  eexists; repeat split.
Qed.

(** Both branches of C4 on a failing and on a successful outcome. *)
Lemma convertShapeResult_normalises_witness :
  convertShapeResult (failingKernel (wasm_combine [])) =
    Result.err "kernel error" /\
  convertShapeResult (succeeded 7) = Result.ok (ownShape 7).
Proof.
  split.
  - apply (proj1 (convertShapeResult_normalises
                    (failingKernel (wasm_combine []))) eq_refl).
  - apply (proj2 (convertShapeResult_normalises (succeeded 7)) eq_refl).
Defined.

(* ================================================================== *)
(** * ShapeFactory *)
(* ================================================================== *)

Section FactoryProperties.

Context {B : Binding}.

Local Open Scope float_scope.

(** C5. For every degree input [d], [arc] and [revolve] hand the kernel the
    angle in radians, [d * pi / 180]: that is the angle argument of the one
    native call [arc] makes, of the one call [revolve] makes on a wrapper,
    and of every call either is seen to make at the boundary. *)
Theorem arc_revolve_pass_radians
  (normal center start : XYZ) (profile : IShape) (h : TopoDS_Shape)
  (axis : Ray) (d : JS.number) (kernel : KernelCall -> ShapeResult) :
  ShapeFactory.arc normal center start d =
    Invoke (wasm_arc normal center start (d * JS.Math_PI / 180))
           (fun r => Return (convertShapeResult r)) /\
  ShapeFactory.revolve (OccShape h) axis d =
    Invoke (wasm_revolve (Some h) axis (d * JS.Math_PI / 180))
           (fun r => Return (convertShapeResult r)) /\
  snd (run kernel (ShapeFactory.arc normal center start d)) =
    [wasm_arc normal center start (d * JS.Math_PI / 180)] /\
  (forall c,
      In c (snd (run kernel (ShapeFactory.revolve profile axis d))) ->
      exists p, c = wasm_revolve p axis (d * JS.Math_PI / 180)).
Proof.
  repeat split.
  intros c. destruct profile as [hp|f]; simpl.
  - intros [<-|[]]. eexists. reflexivity.
  - intros [].
Qed.

(** C7. For every pair of shapes, [fuse(a, b)] and [booleanFuse(a, b)] are
    the same operation.  They are the same computation; under every kernel
    both throw when an operand is foreign, and otherwise both make the one
    call of the boolean-fuse primitive with the handle of [a] first and the
    handle of [b] second, and return its outcome normalised. *)
Theorem fuse_is_booleanFuse (a b : IShape)
  (kernel : KernelCall -> ShapeResult) :
  ShapeFactory.fuse a b = ShapeFactory.booleanFuse a b /\
  run kernel (ShapeFactory.fuse a b) =
    run kernel (ShapeFactory.booleanFuse a b) /\
  run kernel (ShapeFactory.booleanFuse a b) =
    (if hasForeign [a; b] then (Thrown onlyOcc, [])
     else
       let c := wasm_booleanFuse (handles [a]) (handles [b]) in
       (Returned (convertShapeResult (kernel c)), [c])).
Proof.
  split; [reflexivity|]. split; [reflexivity|].
  destruct a as [ha|fa], b as [hb|fb]; reflexivity.
Qed.

End FactoryProperties.

Section PrismProperties.

Context {B : Binding}.

Local Open Scope float_scope.

(** C10. [prism] validates the extrusion vector before it unwraps the
    shape: for every shape, a foreign one included, and every vector whose
    length is 0, [prism] returns [Result.err]; nothing is thrown and the
    kernel is not called. *)
Theorem prism_validates_vector_first (s : IShape) (v : XYZ) :
  JS.strictEq (XYZ_length v) 0 = true ->
  ShapeFactory.prism s v = Return (Result.err zeroLengthMessage) /\
  (forall kernel,
      run kernel (ShapeFactory.prism s v) =
        (Returned (Result.err zeroLengthMessage), [])).
Proof.
  intros H. unfold ShapeFactory.prism. rewrite H. split; reflexivity.
Qed.

(** C3, as the code has it.  [prism(shape, v)] returns [Result.err]
    without a kernel call exactly when [v.length()] is exactly 0, as for
    the vector (0, 0, 0); for any other vector it unwraps the shape and,
    for a shape of this binding, makes the one kernel call (a foreign shape
    throws instead). *)
Theorem prism_zero_length_guard (s : IShape) (v : XYZ) (h : TopoDS_Shape)
  (f : OtherShape) :
  (JS.strictEq (XYZ_length v) 0 = true <->
   ShapeFactory.prism s v = Return (Result.err zeroLengthMessage)) /\
  (JS.strictEq (XYZ_length v) 0 = false ->
   ShapeFactory.prism (OccShape h) v =
     Invoke (wasm_prism (Some h) v)
            (fun r => Return (convertShapeResult r)) /\
   ShapeFactory.prism (Foreign f) v = Throw onlyOcc) /\
  ShapeFactory.prism s {| x := 0; y := 0; z := 0 |} =
    Return (Result.err zeroLengthMessage) /\
  (forall kernel,
     snd (run kernel (ShapeFactory.prism (OccShape h) v)) =
       if JS.strictEq (XYZ_length v) 0 then []
       else [wasm_prism (Some h) v]).
Proof.
  unfold ShapeFactory.prism.
  destruct (JS.strictEq (XYZ_length v) 0) eqn:E.
  - repeat split; try reflexivity; discriminate.
  - repeat split; try reflexivity; try discriminate.
    destruct s; discriminate.
Qed.

(** C1, as the code has it.  For every factory operation that accepts
    shapes, a call in which some shape input is not an instance of this
    binding's wrapper throws (and is not a [Result.err]), unless the
    operation is [prism] with a vector of length 0, which is answered with
    [Result.err] before the shape is looked at.  The kernel is not called
    either way. *)
Theorem foreign_shape_is_hard_fault (o : ShapeOperation) :
  hasForeign (shapeInputs o) = true ->
  perform o =
    (if zeroLengthPrism o then Return (Result.err zeroLengthMessage)
     else Throw onlyOcc) /\
  (forall kernel, snd (run kernel (perform o)) = []).
Proof.
  intros H.
  assert (E : perform o =
              if zeroLengthPrism o then Return (Result.err zeroLengthMessage)
              else Throw onlyOcc).
  { destruct o; simpl in *;
      unfold ShapeFactory.face, ShapeFactory.wire, ShapeFactory.prism,
        ShapeFactory.fuse, ShapeFactory.sweep, ShapeFactory.revolve,
        ShapeFactory.booleanCommon, ShapeFactory.booleanCut,
        ShapeFactory.booleanFuse, ShapeFactory.combine,
        ShapeFactory.makeThickSolidBySimple,
        ShapeFactory.makeThickSolidByJoin;
      try (rewrite ensureOccShape_array_foreign by exact H; reflexivity);
      try (destruct (JS.strictEq (XYZ_length vec) 0); [reflexivity|]);
      repeat match goal with
             | s : IShape |- _ => destruct s; simpl in H; try discriminate
             end;
      try reflexivity.
    fold (hasForeign closingFaces) in H.
    rewrite ensureOccShape_single, ensureOccShape_array_foreign by exact H.
    reflexivity. }
  split; [exact E|]. intros kernel. rewrite E.
  destruct (zeroLengthPrism o); reflexivity.
Qed.

End PrismProperties.

Section LineProperties.

Context {B : Binding}.

Local Open Scope float_scope.

Lemma allEqualZero_coincide (epsilon : JS.number) (p q : XYZ) :
  MathUtils.allEqualZero epsilon [x p - x q; y p - y q; z p - z q] =
  coincide epsilon p q.
Proof.
  unfold MathUtils.allEqualZero, coincide. simpl.
  rewrite andb_true_r, andb_assoc. reflexivity.
Qed.

End LineProperties.

(* ================================================================== *)
(** * QuaternionConverter.convertBack *)
(* ================================================================== *)

Section ConvertBackProperties.

Variable Quaternion : Type.
Variable fromEuler : JS.number -> JS.number -> JS.number -> Quaternion.

Local Open Scope float_scope.

Lemma filter_map_length {X Y : Type} (f : X -> Y) (keep : Y -> bool)
  (l : list X) :
  List.length (filter keep (map f l)) =
  List.length (filter (fun a => keep (f a)) l).
Proof.
  induction l as [|a l IH]; simpl; [reflexivity|].
  destruct (keep (f a)); simpl; rewrite IH; reflexivity.
Qed.

(** C9. [convertBack] succeeds if and only if exactly three of the
    comma-separated tokens convert to a number that is not NaN, the other
    tokens being dropped: ["1,2,3,4"] is an error, ["1,a,2,3"] succeeds with
    the angles 1, 2, 3 degrees; a failure carries the input in its
    message. *)
Theorem convertBack_ok_iff_three_numbers (value : string) :
  (Result.isOk (QuaternionConverter.convertBack fromEuler value) = true <->
   List.length
     (filter (fun token => negb (JS.isNaN (JS.Number token)))
        (JS.split "," value)) = 3%nat) /\
  ((exists a b c,
       QuaternionConverter.numbersOf value = [a; b; c] /\
       QuaternionConverter.convertBack fromEuler value =
         Result.ok (fromEuler (a * (JS.Math_PI / 180))
                      (b * (JS.Math_PI / 180)) (c * (JS.Math_PI / 180)))) \/
   (List.length (QuaternionConverter.numbersOf value) <> 3%nat /\
    QuaternionConverter.convertBack fromEuler value =
      Result.err (value ++ " convert to Quaternion error")%string)) /\
  QuaternionConverter.convertBack fromEuler "1,2,3,4" =
    Result.err "1,2,3,4 convert to Quaternion error" /\
  QuaternionConverter.convertBack fromEuler "1,a,2,3" =
    Result.ok (fromEuler (1 * (JS.Math_PI / 180)) (2 * (JS.Math_PI / 180))
                 (3 * (JS.Math_PI / 180))) /\
  QuaternionConverter.convertBack fromEuler "not,a,b" =
    Result.err "not,a,b convert to Quaternion error".
Proof.
  split; [|split; [|repeat split; vm_compute; reflexivity]].
  - unfold QuaternionConverter.convertBack.
    rewrite <- (filter_map_length (fun t => JS.Number t)
                  (fun n => negb (JS.isNaN n))).
    fold (QuaternionConverter.numbersOf value).
    destruct (Nat.eqb_spec (List.length (QuaternionConverter.numbersOf value)) 3)
      as [E|E]; simpl; split; intros H; congruence.
  - unfold QuaternionConverter.convertBack.
    destruct (Nat.eqb_spec (List.length (QuaternionConverter.numbersOf value)) 3)
      as [E|E]; simpl.
    + left.
      destruct (QuaternionConverter.numbersOf value)
        as [|a [|b [|c [|d l]]]]; try discriminate.
      exists a, b, c. split; reflexivity.
    + right. split; [exact E | reflexivity].
Qed.

End ConvertBackProperties.

(* ================================================================== *)
(** * Evaluations *)
(* ================================================================== *)

Local Open Scope float_scope.

(** C1 fails as stated: [prism], an operation that accepts a shape, answers a
    foreign shape with [Result.err] when the vector is (0, 0, 0). *)
Lemma prism_foreign_shape_zero_vector_is_err :
  instanceofOccShape foreignShape = false /\
  ShapeFactory.prism foreignShape origin =
    Return (Result.err zeroLengthMessage).
Proof. split; reflexivity. Qed.

(** C1 on [fuse] with a foreign second operand. *)
Lemma foreign_shape_is_hard_fault_witness :
  hasForeign
    (shapeInputs (op_fuse (ownShape 1) foreignShape)) =
    true /\
  ShapeFactory.fuse (ownShape 1) foreignShape =
    Throw onlyOcc.
Proof.
  split; [reflexivity|].
  exact (proj1 (foreign_shape_is_hard_fault
                  (op_fuse (ownShape 1) foreignShape)
                  eq_refl)).
Defined.


(** C3 fails as stated: every component of (1e-100, 1e-100, 1e-100) is within
    epsilon of zero for each tolerance over 1e-100, yet its length is not 0
    and [prism] goes on to the kernel call. *)
Lemma prism_vector_within_epsilon_reaches_kernel :
  (forall epsilon : JS.number,
      (1e-100 <? epsilon)%float = true ->
      MathUtils.allEqualZero epsilon [1e-100; 1e-100; 1e-100]%float = true) /\
  ShapeFactory.prism (ownShape 1)
    {| x := 1e-100; y := 1e-100; z := 1e-100 |} =
    Invoke (wasm_prism (Some (handle 1)) {| x := 1e-100; y := 1e-100; z := 1e-100 |})
           (fun r => Return (convertShapeResult r)).
Proof.
  split.
  - intros epsilon H. unfold MathUtils.allEqualZero. simpl.
    change (abs 1e-100) with 1e-100%float.
    rewrite (@ltb_not_leb _ _ H). reflexivity.
  - reflexivity.
Qed.

(** C3 on a vector of length 5, and on (0, 0, 0). *)
Lemma prism_zero_length_guard_witness :
  ShapeFactory.prism (ownShape 1)
    {| x := 3; y := 4; z := 0 |} =
    Invoke (wasm_prism (Some (handle 1)) {| x := 3; y := 4; z := 0 |})
           (fun r => Return (convertShapeResult r)) /\
  ShapeFactory.prism (ownShape 1) origin =
    Return (Result.err zeroLengthMessage).
Proof.
  split.
  - exact (proj1 (proj1 (proj2
             (@prism_zero_length_guard sampleBinding (ownShape 1)
                {| x := 3; y := 4; z := 0 |} (handle 1) tt)) eq_refl)).
  - exact (proj1 (proj1
             (@prism_zero_length_guard sampleBinding (ownShape 1)
                origin (handle 1) tt)) eq_refl).
Defined.

(** C10 on a foreign shape and the vector (0, 0, 0). *)
Lemma prism_validates_vector_first_witness :
  JS.strictEq (XYZ_length origin) 0 = true /\
  ShapeFactory.prism foreignShape origin =
    Return (Result.err zeroLengthMessage).
Proof.
  split; [reflexivity|].
  exact (proj1 (@prism_validates_vector_first sampleBinding foreignShape
                  origin eq_refl)).
Defined.

(** The same happens at other tolerances: with [q = (0.8 eps, 0.8 eps, 0)]
    the distance from the origin is not below [eps] while each coordinate
    is within it. *)
Remark line_coordinatewise_at_other_tolerances :
  forallb
    (fun eps =>
       let q := {| x := 0.8 * eps; y := 0.8 * eps; z := 0 |} in
       (eps <=? distance origin q) && coincide eps origin q)
    [1e-3; 1e-4; 1e-5; 1e-6; 1e-7; 1e-8; 1e-9; 1e-10; 1e-12] = true.
Proof. vm_compute. reflexivity. Qed.

(** In binary64 a distance below the tolerance does not bound the
    coordinates once squares underflow: with the tolerance 1e-200 the points
    (0, 0, 0) and (1e-170, 0, 0) are at computed distance 0, and [line]
    calls the kernel. *)
Remark line_distance_underflow :
  (distance origin {| x := 1e-170; y := 0; z := 0 |} <? 1e-200) = true /\
  @ShapeFactory.line sampleBinding 1e-200 origin
    {| x := 1e-170; y := 0; z := 0 |} =
    Invoke (wasm_line origin {| x := 1e-170; y := 0; z := 0 |})
           (fun r => Return (convertShapeResult r)).
Proof. split; vm_compute; reflexivity. Qed.

(** On the edge of the tolerance 1e-7: the points (0, 0, 0) and
    (1e-7, 0, 0), at the distance 1e-7, go to the kernel; a point with an
    infinite or NaN coordinate, taken twice, is rejected like any other. *)
Remark line_at_the_tolerance_and_at_infinity :
  @ShapeFactory.line sampleBinding 1e-7 origin
    {| x := 1e-7; y := 0; z := 0 |} =
    Invoke (wasm_line origin {| x := 1e-7; y := 0; z := 0 |})
           (fun r => Return (convertShapeResult r)) /\
  @ShapeFactory.line sampleBinding 1e-7
    {| x := infinity; y := 0; z := 0 |} {| x := infinity; y := 0; z := 0 |} =
    Return (Result.err tooClose) /\
  @ShapeFactory.line sampleBinding 1e-7
    {| x := 0; y := nan; z := 0 |} {| x := 0; y := nan; z := 0 |} =
    Return (Result.err tooClose).
Proof. repeat split; vm_compute; reflexivity. Qed.

(** The bound [2^-511] on the tolerance cannot be lowered to [2^-512]:
    with the tolerance [e = 0x1.ff8e838b620b8p-512], just under [2^-511],
    the square of [e] is rounded as a subnormal number, the points
    (0, 0, 0) and (e, 0, 0) are at a computed distance below [e], and
    [line] calls the kernel. *)
Remark line_distance_subnormal_square :
  (0x1p-512 <=? 0x1.ff8e838b620b8p-512) = true /\
  (distance origin {| x := 0x1.ff8e838b620b8p-512; y := 0; z := 0 |}
   <? 0x1.ff8e838b620b8p-512) = true /\
  @ShapeFactory.line sampleBinding 0x1.ff8e838b620b8p-512 origin
    {| x := 0x1.ff8e838b620b8p-512; y := 0; z := 0 |} =
    Invoke (wasm_line origin {| x := 0x1.ff8e838b620b8p-512; y := 0; z := 0 |})
           (fun r => Return (convertShapeResult r)).
Proof. repeat split; vm_compute; reflexivity. Qed.

(** An empty token converts to 0 and counts as a number. *)
Remark convertBack_empty_token (Quaternion : Type)
  (fromEuler : JS.number -> JS.number -> JS.number -> Quaternion) :
  QuaternionConverter.convertBack fromEuler "1,,3" =
    Result.ok (fromEuler (1 * (JS.Math_PI / 180)) (0 * (JS.Math_PI / 180))
                 (3 * (JS.Math_PI / 180))) /\
  QuaternionConverter.convertBack fromEuler "" =
    Result.err " convert to Quaternion error".
Proof. split; vm_compute; reflexivity. Qed.

(* ================================================================== *)
(** * More binary64 facts *)
(* ================================================================== *)

Section MoreBinary64.

Local Open Scope float_scope.

(** The sign given to rounding only shows in the sign of the result. *)
Lemma SFabs_binary_round_aux (s1 s2 : bool) (m e : Z) (l : location) :
  SFabs (binary_round_aux FloatOps.prec FloatOps.emax s1 m e l) =
  SFabs (binary_round_aux FloatOps.prec FloatOps.emax s2 m e l).
Proof.
  unfold binary_round_aux.
  destruct (shr_fexp _ _ m e l) as [mrs' e'].
  destruct (shr_fexp _ _ _ e' loc_Exact) as [mrs'' e''].
  destruct (shr_m mrs''); try reflexivity.
  destruct (Z.leb e'' _); reflexivity.
Qed.

Lemma SFabs_binary_normalize_opp (m e : Z) :
  SFabs (binary_normalize FloatOps.prec FloatOps.emax (- m) e false) =
  SFabs (binary_normalize FloatOps.prec FloatOps.emax m e false).
Proof.
  destruct m as [|k|k]; simpl; try reflexivity;
    unfold binary_round;
    destruct (shl_align k e _) as [mz ez]; apply SFabs_binary_round_aux.
Qed.

Lemma SFabs_SFsub_comm (a b : spec_float) :
  SFabs (SF64sub a b) = SFabs (SF64sub b a).
Proof.
  destruct a as [sa|sa| |sa ma ea], b as [sb|sb| |sb mb eb];
    try (destruct sa, sb; reflexivity); try (destruct sa; reflexivity);
    try (destruct sb; reflexivity); try reflexivity.
  unfold SF64sub, SFsub. rewrite (Z.min_comm eb ea).
  rewrite <- SFabs_binary_normalize_opp. f_equal. f_equal. ring.
Qed.

Lemma abs_sub_comm (a b : float) : abs (a - b) = abs (b - a).
Proof.
  apply Prim2SF_inj. rewrite !abs_spec, !sub_spec. apply SFabs_SFsub_comm.
Qed.

(** Right shifts keep a mantissa that is not negative so. *)
Lemma shr_1_nonneg (mrs : shr_record) :
  (0 <= shr_m mrs)%Z -> (0 <= shr_m (shr_1 mrs))%Z.
Proof.
  destruct mrs as [m r s]. simpl.
  destruct m as [|[p|p|]|[p|p|]]; simpl; intros H; try lia.
Qed.

Lemma iter_pos_shr_1_nonneg (n : positive) (mrs : shr_record) :
  (0 <= shr_m mrs)%Z -> (0 <= shr_m (SpecFloat.iter_pos shr_1 n mrs))%Z.
Proof.
  revert mrs. induction n as [n IH|n IH|]; intros mrs H; simpl.
  - apply IH, IH, shr_1_nonneg, H.
  - apply IH, IH, H.
  - apply shr_1_nonneg, H.
Qed.

Lemma shr_fexp_nonneg (m e : Z) (l : location) :
  (0 <= m)%Z ->
  (0 <= shr_m (fst (shr_fexp FloatOps.prec FloatOps.emax m e l)))%Z.
Proof.
  intros H. unfold shr_fexp, shr.
  assert (H0 : (0 <= shr_m (shr_record_of_loc m l))%Z).
  { destruct l as [|[]]; exact H. }
  destruct (_ - e)%Z; simpl; try exact H0.
  apply iter_pos_shr_1_nonneg, H0.
Qed.

Lemma round_nearest_even_nonneg (m : Z) (l : location) :
  (0 <= m)%Z -> (0 <= round_nearest_even m l)%Z.
Proof.
  intros H. destruct l as [|[]]; simpl; try lia.
  destruct (Z.even m); lia.
Qed.

(** Rounding a mantissa that is not negative gives a zero, a finite number
    or an infinity of the sign asked for. *)
Lemma binary_round_aux_signed (s : bool) (m e : Z) (l : location) :
  (0 <= m)%Z ->
  match binary_round_aux FloatOps.prec FloatOps.emax s m e l with
  | S754_zero s' | S754_infinity s' | S754_finite s' _ _ => s' = s
  | S754_nan => False
  end.
Proof.
  intros H. unfold binary_round_aux.
  pose proof (shr_fexp_nonneg e l H) as H1.
  destruct (shr_fexp _ _ m e l) as [mrs' e']. simpl in H1.
  pose proof (shr_fexp_nonneg e' loc_Exact
                (round_nearest_even_nonneg (loc_of_shr_record mrs') H1)) as H2.
  destruct (shr_fexp _ _ _ e' loc_Exact) as [mrs'' e'']. simpl in H2.
  destruct (shr_m mrs''); try reflexivity; try lia.
  destruct (Z.leb e'' _); reflexivity.
Qed.

Lemma SFeqb_not_nan (a : spec_float) :
  SFeqb a a = match a with S754_nan => false | _ => true end.
Proof.
  destruct a as [s|s| |s m e]; try reflexivity.
  - destruct s; reflexivity.
  - unfold SFeqb, SFcompare.
    rewrite Z.compare_refl, Pos.compare_cont_refl. destruct s; reflexivity.
Qed.

Lemma isNaN_spec (v : float) :
  JS.isNaN v = match Prim2SF v with S754_nan => true | _ => false end.
Proof.
  unfold JS.isNaN. rewrite FloatAxioms.eqb_spec, SFeqb_not_nan.
  destruct (Prim2SF v); reflexivity.
Qed.

(** A number that is not NaN times a finite number other than zero is not
    NaN. *)
Lemma mul_not_NaN (v k : float) (s : bool) (m : positive) (e : Z) :
  Prim2SF k = S754_finite s m e ->
  JS.isNaN v = false -> JS.isNaN (v * k) = false.
Proof.
  intros Hk. rewrite !isNaN_spec, mul_spec, Hk.
  destruct (Prim2SF v) as [sv|sv| |sv mv ev]; try reflexivity; try discriminate.
  intros _. unfold SF64mul, SFmul.
  pose proof (@binary_round_aux_signed (xorb sv s) (Zpos (mv * m)) (ev + e)
                loc_Exact ltac:(lia)) as H.
  destruct (binary_round_aux _ _ _ _ _ _); [reflexivity..|contradiction|reflexivity].
Qed.

Lemma SFtop_notneg (a : spec_float) : SFtop a -> SFnotneg a.
Proof. intros [->| ->]; reflexivity. Qed.

Lemma SFmul_diag_notneg (a : spec_float) : SFnotneg (SF64mul a a).
Proof.
  destruct a as [s|s| |s m e]; simpl; try apply xorb_nilpotent; trivial.
  pose proof (@binary_round_aux_signed (xorb s s) (Zpos (m * m)) (e + e)
                loc_Exact ltac:(lia)) as H.
  unfold SFnotneg.
  destruct (binary_round_aux _ _ _ _ _ _); trivial;
    rewrite H; apply xorb_nilpotent.
Qed.

Lemma SFmul_diag_top (a : spec_float) :
  match a with S754_nan | S754_infinity _ => True | _ => False end ->
  SFtop (SF64mul a a).
Proof.
  destruct a as [s|s| |s m e]; intros H; try contradiction.
  - right. simpl. rewrite xorb_nilpotent. reflexivity.
  - left. reflexivity.
Qed.

Lemma SFadd_notneg (a b : spec_float) :
  SFnotneg a -> SFnotneg b -> SFnotneg (SF64add a b).
Proof.
  destruct a as [sa|sa| |sa ma ea], b as [sb|sb| |sb mb eb]; simpl;
    intros Ha Hb; subst; try exact I; try reflexivity.
  unfold SF64add, SFadd.
  set (p := fst (shl_align ma ea (Z.min ea eb))).
  set (q := fst (shl_align mb eb (Z.min ea eb))).
  change (cond_Zopp false (Zpos p) + cond_Zopp false (Zpos q))%Z
    with (Zpos (p + q)).
  unfold binary_normalize, binary_round.
  destruct (shl_align (p + q) _ _) as [mz ez].
  pose proof (@binary_round_aux_signed false (Zpos mz) ez loc_Exact
                ltac:(lia)) as H.
  unfold SFnotneg.
  destruct (binary_round_aux _ _ _ _ _ _); trivial.
Qed.

Lemma SFadd_top_l (a b : spec_float) :
  SFtop a -> SFnotneg b -> SFtop (SF64add a b).
Proof.
  intros [->| ->] Hb; [left; reflexivity|].
  destruct b as [sb|sb| |sb mb eb]; simpl in *; subst;
    (left; reflexivity) || (right; reflexivity).
Qed.

Lemma SFadd_top_r (a b : spec_float) :
  SFnotneg a -> SFtop b -> SFtop (SF64add a b).
Proof.
  intros Ha [->| ->].
  - left. destruct a; reflexivity.
  - destruct a as [sa|sa| |sa ma ea]; simpl in *; subst;
      (left; reflexivity) || (right; reflexivity).
Qed.

Lemma SFsqrt_top (a : spec_float) : SFtop a -> SFtop (SF64sqrt a).
Proof. intros [->| ->]; [left|right]; reflexivity. Qed.

Lemma not_finite_cases (v : float) :
  is_finite v = false ->
  match Prim2SF v with S754_nan | S754_infinity _ => True | _ => False end.
Proof.
  unfold is_finite, is_nan, is_infinity.
  rewrite !FloatAxioms.eqb_spec, abs_spec, SFeqb_not_nan.
  change (Prim2SF infinity) with (S754_infinity false).
  destruct (Prim2SF v) as [s|s| |s m e]; trivial; discriminate.
Qed.

(** The computed length of a vector with a NaN or infinite component is NaN
    or infinite, never 0. *)
Lemma length_not_zero_of_not_finite (v : XYZ) :
  finiteXYZ v = false -> JS.strictEq (XYZ_length v) 0 = false.
Proof.
  intros H. unfold JS.strictEq, XYZ_length.
  rewrite FloatAxioms.eqb_spec, sqrt_spec, !add_spec, !mul_spec.
  change (Prim2SF 0) with (S754_zero false).
  assert (T : SFtop (SF64sqrt
                 (SF64add
                    (SF64add (SF64mul (Prim2SF (x v)) (Prim2SF (x v)))
                       (SF64mul (Prim2SF (y v)) (Prim2SF (y v))))
                    (SF64mul (Prim2SF (z v)) (Prim2SF (z v)))))).
  { apply SFsqrt_top. unfold finiteXYZ in H.
    apply andb_false_iff in H as [H|H]; [apply andb_false_iff in H as [H|H]|].
    - apply SFadd_top_l; [apply SFadd_top_l|]; try apply SFmul_diag_notneg.
      apply SFmul_diag_top, not_finite_cases, H.
    - apply SFadd_top_l; [apply SFadd_top_r|]; try apply SFmul_diag_notneg.
      apply SFmul_diag_top, not_finite_cases, H.
    - apply SFadd_top_r; [apply SFadd_notneg; apply SFmul_diag_notneg|].
      apply SFmul_diag_top, not_finite_cases, H. }
  destruct T as [-> | ->]; reflexivity.
Qed.

End MoreBinary64.

(* ================================================================== *)
(** * Rounding to nearest in binary64 *)
(* ================================================================== *)

Section Rounding.

Local Open Scope R_scope.

Lemma bpow_gt_0 (e : Z) : 0 < bpow e.
Proof. apply powerRZ_lt. lra. Qed.

Lemma bpow_add (a b : Z) : bpow (a + b) = bpow a * bpow b.
Proof. apply powerRZ_add. lra. Qed.


Lemma bpow_1 : bpow 1 = 2.
Proof. unfold bpow. simpl. lra. Qed.



Lemma bpow_Z (n : Z) : (0 <= n)%Z -> bpow n = IZR (2 ^ n).
Proof.
  intros H. unfold bpow. rewrite <- (Z2Nat.id n H) at 1.
  rewrite <- pow_powerRZ. rewrite <- (Z2Nat.id n H) at 2.
  generalize (Z.to_nat n). intros k. induction k as [|k IH].
  - reflexivity.
  - rewrite Nat2Z.inj_succ, Z.pow_succ_r by lia.
    rewrite mult_IZR, <- IH. simpl. reflexivity.
Qed.


Lemma bpow_lt (a b : Z) : (a < b)%Z -> bpow a < bpow b.
Proof.
  intros H. replace b with (a + 1 + (b - a - 1))%Z by lia.
  rewrite !bpow_add, bpow_1.
  pose proof (bpow_gt_0 a).
  assert (1 <= bpow (b - a - 1)).
  { rewrite bpow_Z by lia. apply IZR_le.
    pose proof (Z.pow_pos_nonneg 2 (b - a - 1)). lia. }
  nra.
Qed.


















































End Rounding.

(* ================================================================== *)
(** * The guard of [line] *)
(* ================================================================== *)

Section LineGuard.

Context {B : Binding}.

Local Open Scope float_scope.



End LineGuard.

(* ================================================================== *)
(** * The factory as a whole *)
(* ================================================================== *)

Section WholeFactoryProperties.

Context {B : Binding}.

Local Open Scope float_scope.

Lemma handles_own (l : list IShape) :
  hasForeign l = false -> map OccShape (handles l) = l.
Proof.
  induction l as [|[h|f] l IH]; simpl; intros H.
  - reflexivity.
  - rewrite (IH H). reflexivity.
  - discriminate.
Qed.

Lemma handles_single (s : IShape) :
  hasForeign [s] = false -> exists h, s = OccShape h /\ handles [s] = [h].
Proof.
  destruct s as [h|f]; simpl; intros H; [eauto | discriminate].
Qed.

(** X1. On an array, [ensureOccShape] returns exactly when no element is
    foreign, with one handle per element in the same order (wrapping the
    handles again gives the array back); it throws exactly when some element
    is foreign; and it never calls the kernel. *)
Theorem ensureOccShape_array_unwraps (l : list IShape)
  (kernel : KernelCall -> ShapeResult) :
  (hasForeign l = false <->
   exists hs, ensureOccShape (inr l) = Return hs /\
              map OccShape hs = l /\ List.length hs = List.length l) /\
  (hasForeign l = true <-> ensureOccShape (inr l) = Throw onlyOcc) /\
  snd (run kernel (ensureOccShape (inr l))) = [].
Proof.
  destruct (hasForeign l) eqn:E.
  - rewrite (ensureOccShape_array_foreign l E).
    repeat split; try discriminate; try reflexivity.
    intros [hs [H _]]. discriminate.
  - rewrite (ensureOccShape_array_own l E).
    repeat split; try discriminate; try reflexivity.
    intros _. exists (handles l). split; [reflexivity|].
    split; [apply handles_own, E|].
    rewrite <- (handles_own l E) at 2. rewrite length_map. reflexivity.
Qed.

(** Every operation is its checks followed by one converted native call. *)
Lemma performAny_closed_form (epsilon : JS.number)
  (o : ShapeOperation + PlainOperation) :
  performAny epsilon o =
  match rejection epsilon o with
  | Some (validationError m) => Return (Result.err m)
  | Some (hardFault m) => Throw m
  | None => converted (callOf o)
  end.
Proof.
  destruct o as [s|p].
  - simpl. destruct (zeroLengthPrism s) eqn:Z.
    + destruct s; try discriminate. simpl in *.
      unfold ShapeFactory.prism. rewrite Z. reflexivity.
    + destruct (hasForeign (shapeInputs s)) eqn:F.
      * destruct s; simpl in *;
          unfold ShapeFactory.face, ShapeFactory.wire, ShapeFactory.prism,
            ShapeFactory.fuse, ShapeFactory.sweep, ShapeFactory.revolve,
            ShapeFactory.booleanCommon, ShapeFactory.booleanCut,
            ShapeFactory.booleanFuse, ShapeFactory.combine,
            ShapeFactory.makeThickSolidBySimple,
            ShapeFactory.makeThickSolidByJoin;
          try rewrite Z;
          try (rewrite ensureOccShape_array_foreign by exact F; reflexivity);
          repeat match goal with
                 | s : IShape |- _ => destruct s; simpl in F; try discriminate
                 end;
          try reflexivity.
        fold (hasForeign closingFaces) in F.
        rewrite ensureOccShape_single, ensureOccShape_array_foreign
          by exact F.
        reflexivity.
      * destruct s; simpl in *;
          unfold ShapeFactory.face, ShapeFactory.wire, ShapeFactory.prism,
            ShapeFactory.fuse, ShapeFactory.sweep, ShapeFactory.revolve,
            ShapeFactory.booleanCommon, ShapeFactory.booleanCut,
            ShapeFactory.booleanFuse, ShapeFactory.combine,
            ShapeFactory.makeThickSolidBySimple,
            ShapeFactory.makeThickSolidByJoin;
          try rewrite Z;
          try (rewrite ensureOccShape_array_own by exact F; reflexivity);
          repeat match goal with
                 | s : IShape |- _ => destruct s; simpl in F; try discriminate
                 end;
          try reflexivity.
        fold (hasForeign closingFaces) in F.
        rewrite ensureOccShape_single, ensureOccShape_array_own by exact F.
        reflexivity.
  - destruct p; try reflexivity.
    simpl. unfold ShapeFactory.line. rewrite allEqualZero_coincide.
    destruct (coincide epsilon start end_); reflexivity.
Qed.

(** X2. Whatever the operation, its arguments and the kernel: a thrown
    error is the foreign-shape fault and no kernel call was made; a
    [Result.err] is either one of the two validation messages with no kernel
    call, or the kernel's error as a string after the one call that the
    kernel failed; a [Result.ok] holds the wrapper of the handle of the one
    call made, which the kernel reported as successful.  No operation calls
    the kernel twice, and none throws after a call. *)
Theorem factory_outcome_provenance (epsilon : JS.number)
  (o : ShapeOperation + PlainOperation)
  (kernel : KernelCall -> ShapeResult) :
  match run kernel (performAny epsilon o) with
  | (Thrown m, calls) => m = onlyOcc /\ calls = []
  | (Returned (Result.err e), calls) =>
      (calls = [] /\ (e = tooClose \/ e = zeroLengthMessage)) \/
      (exists c, calls = [c] /\ isOk (kernel c) = false /\
                 e = String_ (error (kernel c)))
  | (Returned (Result.ok w), calls) =>
      exists c, calls = [c] /\ isOk (kernel c) = true /\
                w = OcctHelper_wrapShape (shape (kernel c))
  end.
Proof.
  rewrite performAny_closed_form.
  destruct (rejection epsilon o) as [[m|m]|] eqn:R.
  - simpl. left. split; [reflexivity|].
    destruct o as [s|p]; simpl in R.
    + destruct (zeroLengthPrism s); [|destruct (hasForeign _); discriminate].
      right. congruence.
    + destruct p; try discriminate.
      destruct (coincide _ _ _); [|discriminate]. left. congruence.
  - simpl. split; [|reflexivity].
    destruct o as [s|p]; simpl in R.
    + destruct (zeroLengthPrism s); [discriminate|].
      destruct (hasForeign _); congruence.
    + destruct p; try discriminate.
      destruct (coincide _ _ _); discriminate.
  - simpl. unfold convertShapeResult.
    destruct (isOk (kernel (callOf o))) eqn:K; simpl.
    + exists (callOf o). auto.
    + right. exists (callOf o). auto.
Qed.

(** X3. An operation that passes its checks (no foreign shape, no vector of
    length 0 for [prism], no coinciding points for [line]) makes exactly one
    kernel call, hands it the native handles of its shape inputs, all of them
    and in argument order, and returns the normalised outcome of that
    call. *)
Theorem accepted_operation_calls_once (epsilon : JS.number)
  (o : ShapeOperation + PlainOperation)
  (kernel : KernelCall -> ShapeResult) :
  rejection epsilon o = None ->
  exists c,
    run kernel (performAny epsilon o) =
      (Returned (convertShapeResult (kernel c)), [c]) /\
    shapeArguments c = handles (shapeInputsAny o) /\
    map OccShape (shapeArguments c) = shapeInputsAny o.
Proof.
  intros R. rewrite performAny_closed_form, R.
  exists (callOf o). split; [reflexivity|].
  assert (F : hasForeign (shapeInputsAny o) = false).
  { destruct o as [s|p]; [|reflexivity]. simpl in *.
    destruct (zeroLengthPrism s); [discriminate|].
    destruct (hasForeign (shapeInputs s)); [discriminate|reflexivity]. }
  assert (E : shapeArguments (callOf o) = handles (shapeInputsAny o)).
  { destruct o as [s|p]; [|destruct p; reflexivity].
    destruct s; simpl in *; try reflexivity;
      repeat match goal with
             | s : IShape |- _ => destruct s; simpl in F; try discriminate
             end; reflexivity. }
  split; [exact E|]. rewrite E. apply handles_own, F.
Qed.

(** X4. Whether [line] rejects its points does not depend on their order:
    [line(p, q)] returns the too-close error exactly when [line(q, p)]
    does. *)
Theorem line_rejection_symmetric (epsilon : JS.number) (p q : XYZ) :
  ShapeFactory.line epsilon p q = Return (Result.err tooClose) <->
  ShapeFactory.line epsilon q p = Return (Result.err tooClose).
Proof.
  assert (C : coincide epsilon p q = coincide epsilon q p).
  { unfold coincide.
    rewrite (abs_sub_comm (x p)), (abs_sub_comm (y p)), (abs_sub_comm (z p)).
    reflexivity. }
  unfold ShapeFactory.line. rewrite !allEqualZero_coincide, C.
  destruct (coincide epsilon q p); split; intros H;
    reflexivity || discriminate.
Qed.

(** X5. [prism] does not reject a vector with a NaN or infinite component:
    its computed length is not 0, so a wrapper goes to the kernel with that
    vector and a foreign shape throws. *)
Theorem prism_not_finite_vector_passes (h : TopoDS_Shape) (f : OtherShape)
  (v : XYZ) :
  finiteXYZ v = false ->
  ShapeFactory.prism (OccShape h) v =
    Invoke (wasm_prism (Some h) v) (fun r => Return (convertShapeResult r)) /\
  ShapeFactory.prism (Foreign f) v = Throw onlyOcc.
Proof.
  intros H. unfold ShapeFactory.prism.
  rewrite (length_not_zero_of_not_finite v H). split; reflexivity.
Qed.

End WholeFactoryProperties.

(* ================================================================== *)
(** * The converter, both directions *)
(* ================================================================== *)

Section ConverterProperties.

Local Open Scope float_scope.

Lemma split_length (sep : ascii) (s : string) :
  List.length (JS.split sep s) = S (countChar sep s).
Proof.
  induction s as [|a s IH]; simpl; [reflexivity|].
  destruct (Ascii.eqb a sep); simpl.
  - rewrite IH. reflexivity.
  - destruct (JS.split sep s); simpl in *; [discriminate|exact IH].
Qed.

Lemma split_without_separator (sep : ascii) (s : string) :
  countChar sep s = 0%nat -> JS.split sep s = [s].
Proof.
  induction s as [|a s IH]; simpl; [reflexivity|].
  destruct (Ascii.eqb a sep); simpl; [discriminate|].
  intros H. rewrite (IH H). reflexivity.
Qed.

Lemma split_first_field (sep : ascii) (s rest : string) :
  countChar sep s = 0%nat ->
  JS.split sep (s ++ String sep rest) = s :: JS.split sep rest.
Proof.
  induction s as [|a s IH]; simpl.
  - rewrite Ascii.eqb_refl. reflexivity.
  - destruct (Ascii.eqb a sep); simpl; [discriminate|].
    intros H. rewrite (IH H). reflexivity.
Qed.

Lemma numbersOf_length_le (value : string) :
  (List.length (QuaternionConverter.numbersOf value) <=
   S (countChar "," value))%nat.
Proof.
  unfold QuaternionConverter.numbersOf.
  rewrite <- split_length, <- (length_map (fun t => JS.Number t)).
  apply filter_length_le.
Qed.

(** X6. A text with fewer than two commas is never converted:
    [convertBack] returns the error that carries the text. *)
Theorem convertBack_needs_two_commas (Quaternion : Type)
  (fromEuler : JS.number -> JS.number -> JS.number -> Quaternion)
  (value : string) :
  (countChar "," value < 2)%nat ->
  QuaternionConverter.convertBack fromEuler value =
    Result.err (value ++ " convert to Quaternion error")%string.
Proof.
  intros H. unfold QuaternionConverter.convertBack.
  pose proof (numbersOf_length_le value) as L.
  destruct (Nat.eqb_spec (List.length (QuaternionConverter.numbersOf value)) 3)
    as [E|E]; [lia | reflexivity].
Qed.

Lemma numbersOf_not_NaN (value : string) (v : JS.number) :
  In v (QuaternionConverter.numbersOf value) -> JS.isNaN v = false.
Proof.
  unfold QuaternionConverter.numbersOf. intros H.
  apply filter_In in H as [_ H]. apply negb_true_iff, H.
Qed.

Lemma degree_factor_finite :
  exists s m e, Prim2SF (JS.Math_PI / 180) = S754_finite s m e.
Proof. vm_compute. eauto. Qed.

(** X7. No angle that [convertBack] hands to [Quaternion.fromEuler] is NaN
    (an infinite one can be): recording the three arguments shows each of
    them is a number. *)
Theorem convertBack_angles_not_NaN (value : string) (a b c : JS.number) :
  QuaternionConverter.convertBack recordEuler value =
    Result.ok (a, b, c) ->
  JS.isNaN a = false /\ JS.isNaN b = false /\ JS.isNaN c = false.
Proof.
  unfold QuaternionConverter.convertBack.
  pose proof (numbersOf_not_NaN value) as N.
  destruct (Nat.eqb_spec (List.length (QuaternionConverter.numbersOf value)) 3)
    as [E|E]; simpl; [|discriminate].
  destruct (QuaternionConverter.numbersOf value)
    as [|u [|v [|w [|d l]]]]; try discriminate.
  unfold QuaternionConverter.at_; simpl.
  intros H. injection H as <- <- <-.
  destruct degree_factor_finite as [s [m [e K]]].
  repeat split; (eapply mul_not_NaN; [exact K|]); apply N; simpl; auto.
Qed.

(** X8. [convertBack] reads the text of [convert] field by field.  When the
    three printed angles contain no comma, [convertBack(convert(q))]
    succeeds exactly when each printed angle converts back to a number that
    is not NaN, and then builds the quaternion from those numbers times
    pi/180; otherwise it is the error carrying the text. *)
Theorem convert_then_convertBack (Quaternion : Type)
  (toEuler : Quaternion -> XYZ) (Number_toString : JS.number -> string)
  (fromEuler : JS.number -> JS.number -> JS.number -> Quaternion)
  (q : Quaternion) :
  let s := 180 / JS.Math_PI in
  let ta := Number_toString (x (toEuler q) * s) in
  let tb := Number_toString (y (toEuler q) * s) in
  let tc := Number_toString (z (toEuler q) * s) in
  countChar "," ta = 0%nat ->
  countChar "," tb = 0%nat ->
  countChar "," tc = 0%nat ->
  exists text,
    QuaternionConverter_convert toEuler Number_toString q = Result.ok text /\
    QuaternionConverter.convertBack fromEuler text =
      if negb (JS.isNaN (JS.Number ta)) && negb (JS.isNaN (JS.Number tb))
         && negb (JS.isNaN (JS.Number tc))
      then Result.ok (fromEuler (JS.Number ta * (JS.Math_PI / 180))
                        (JS.Number tb * (JS.Math_PI / 180))
                        (JS.Number tc * (JS.Math_PI / 180)))
      else Result.err (text ++ " convert to Quaternion error")%string.
Proof.
  intros s ta tb tc Ha Hb Hc.
  unfold QuaternionConverter_convert. fold s ta tb tc.
  eexists. split; [reflexivity|].
  unfold QuaternionConverter.convertBack, QuaternionConverter.numbersOf.
  change (ta ++ "," ++ tb ++ "," ++ tc)%string
    with (ta ++ String "," (tb ++ String "," tc))%string.
  rewrite (@split_first_field ","%char ta _ Ha),
    (@split_first_field ","%char tb _ Hb),
    (@split_without_separator ","%char tc Hc).
  simpl.
  destruct (JS.isNaN (JS.Number ta)), (JS.isNaN (JS.Number tb)),
    (JS.isNaN (JS.Number tc)); reflexivity.
Qed.

End ConverterProperties.

(* ================================================================== *)
(** * More evaluations *)
(* ================================================================== *)

(** X3 on a cut of the wrapper of handle 1 by the wrapper of handle 2, with
    a kernel that succeeds. *)
Lemma accepted_operation_calls_once_witness :
  rejection 1e-7 sampleCut = None /\
  exists c,
    run succeedingKernel (performAny 1e-7 sampleCut) =
      (Returned (convertShapeResult (succeedingKernel c)), [c]) /\
    shapeArguments c = handles (shapeInputsAny sampleCut) /\
    map OccShape (shapeArguments c) = shapeInputsAny sampleCut.
Proof.
  split; [reflexivity|].
  exact (@accepted_operation_calls_once sampleBinding 1e-7 sampleCut
           succeedingKernel eq_refl).
Defined.

(** X5 on a vector whose first component is NaN. *)
Lemma prism_not_finite_vector_passes_witness :
  finiteXYZ {| x := nan; y := 0; z := 1 |} = false /\
  ShapeFactory.prism (ownShape 1) {| x := nan; y := 0; z := 1 |} =
    Invoke (wasm_prism (Some (handle 1)) {| x := nan; y := 0; z := 1 |})
           (fun r => Return (convertShapeResult r)).
Proof.
  split; [reflexivity|].
  exact (proj1 (@prism_not_finite_vector_passes sampleBinding (handle 1) tt
                  {| x := nan; y := 0; z := 1 |} eq_refl)).
Defined.

(** X6 on a text with one comma. *)
Lemma convertBack_needs_two_commas_witness :
  (countChar "," "10,20" < 2)%nat /\
  QuaternionConverter.convertBack recordEuler "10,20" =
    Result.err "10,20 convert to Quaternion error".
Proof.
  split; [vm_compute; lia|].
  apply (@convertBack_needs_two_commas _ recordEuler "10,20").
  vm_compute; lia.
Defined.

(** X7 on the text "1,2,3". *)
Lemma convertBack_angles_not_NaN_witness :
  QuaternionConverter.convertBack recordEuler "1,2,3" =
    Result.ok (1 * (JS.Math_PI / 180), 2 * (JS.Math_PI / 180),
               3 * (JS.Math_PI / 180)) /\
  JS.isNaN (1 * (JS.Math_PI / 180)) = false.
Proof.
  split; [vm_compute; reflexivity|].
  refine (proj1 (@convertBack_angles_not_NaN "1,2,3" _ _ _ _)).
  vm_compute; reflexivity.
Defined.

(** X8 with Euler angles (0, 0, 0) printed as "0". *)
Lemma convert_then_convertBack_witness :
  countChar "," "0" = 0%nat /\
  exists text,
    QuaternionConverter_convert (fun _ => origin) (fun _ => "0")
      (recordEuler 0 0 0) =
      Result.ok text /\
    QuaternionConverter.convertBack recordEuler text =
      Result.ok (recordEuler (0 * (JS.Math_PI / 180)) (0 * (JS.Math_PI / 180))
                   (0 * (JS.Math_PI / 180))).
Proof.
  split; [reflexivity|].
  exact (@convert_then_convertBack _ (fun _ => origin) (fun _ => "0")
           recordEuler (recordEuler 0 0 0) eq_refl eq_refl eq_refl).
Defined.

